(** * LaunchRootExecutionButton: the "launch a run" action of the dashboard

    A shallow embedding of
    [js_modules/dagit/packages/core/src/launchpad/LaunchRootExecutionButton.tsx]:
    the click handler [onLaunch] and the configuration the component hands to
    [LaunchButton].

    The handler is effectful: it calls the GraphQL mutation, the telemetry
    sink, the result handler and the error dialog, and it has a [try]/[catch].
    It is embedded in a small monad that logs every call to a collaborator,
    in program order, and carries JavaScript's two ways of completing
    (returning a value, throwing an error). *)

From Stdlib Require Import Sorted.
From stdpp Require Import base option list strings gmap.

Open Scope string_scope.
Open Scope list_scope.

(** ** JavaScript values *)

(** A field of type [T | null | undefined] (an optional GraphQL input). *)
Inductive Nullable (A : Type) : Type :=
  | Undefined
  | Null
  | Value (a : A).
Arguments Undefined {A}.
Arguments Null {A}.
Arguments Value {A} a.

(** What [if (v)] and [v || w] test. *)
Class Truthy (A : Type) := truthy : A -> bool.

(** A string is falsy exactly when it is empty. *)
#[export] Instance string_truthy : Truthy string :=
  fun s => negb (String.eqb s "").

(** An array is an object: truthy whatever it holds, the empty one too. *)
#[export] Instance array_truthy {A : Type} : Truthy (list A) :=
  fun _ => true.

#[export] Instance nullable_truthy {A : Type} `{Truthy A} : Truthy (Nullable A) :=
  fun v => match v with
           | Value a => truthy a
           | Undefined | Null => false
           end.

(** [a || b] on two operands of one type. *)
Definition js_or {A : Type} `{Truthy A} (a b : A) : A :=
  if truthy a then a else b.

(** [a || b] where [a] is optional and [b] is a plain default. *)
Definition js_or_default {A : Type} `{Truthy A} (a : Nullable A) (b : A) : A :=
  match a with
  | Value x => if truthy x then x else b
  | Undefined | Null => b
  end.

(** A thrown JavaScript [Error]. *)
Record Error : Type := { message : string }.

(** How a call completes. For the promise of an [async] function, [Returns]
    is "resolved" and [Throws] is "rejected". *)
Inductive Completion (A : Type) : Type :=
  | Returns (a : A)
  | Throws (e : Error).
Arguments Returns {A} a.
Arguments Throws {A} e.

(** ** The request: [LaunchPipelineExecutionVariables] *)

(** Modelled from the spec: the generated GraphQL types of
    [../runs/types/LaunchPipelineExecution] are not among the sources. The
    selector has the three fields [onLaunch] reads; the request identifies the
    job by name, carries an optional op subset, a configuration document and
    run-scoped tags. *)
Record JobOrPipelineSelector : Type := {
  jobName : Nullable string;
  pipelineName : Nullable string;
  solidSelection : Nullable (list string)
}.

Record ExecutionParams : Type := {
  selector : JobOrPipelineSelector;
  runConfigData : string;
  tags : list (string * string)
}.

Record LaunchPipelineExecutionVariables : Type := {
  executionParams : ExecutionParams
}.

(** Modelled from the spec: the mutation's result type is not among the
    sources; "a discriminated outcome, Success{runId} or Failure{error}".
    A [Failure] is a response the call resolved with, not a thrown error. *)
Inductive LaunchPipelineExecution : Type :=
  | Success (runId : string)
  | Failure (error : string).

(** [TelemetryAction], of [../app/Telemetry]; the member the handler uses. *)
Inductive TelemetryAction : Type :=
  | LAUNCH_RUN.

(** [props.behavior: 'open' | 'open-in-new-tab' | 'toast'] *)
Inductive Behavior : Type :=
  | open
  | open_in_new_tab
  | toast.

(** [const metadata: {[key: string]: string | null | undefined} = {}] *)
Abbreviation Metadata := (gmap string (Nullable string)).

(** react-router's history handle, passed on untouched: the visited paths. *)
Definition History : Type := list string.

(** ** Calls to collaborators *)

Inductive Event : Type :=
  | Mutation (variables : LaunchPipelineExecutionVariables)
  | Telemetry (action : TelemetryAction) (metadata : Metadata)
  | HandleLaunchResult (pipelineName : string) (result : LaunchPipelineExecution)
      (history : History) (behavior : Behavior)
  | ShowLaunchError (error : Error).

(** A computation: the calls it made, oldest first, and how it completed. *)
Definition Async (A : Type) : Type := list Event * Completion A.

Definition trace {A : Type} (m : Async A) : list Event := fst m.
Definition completion {A : Type} (m : Async A) : Completion A := snd m.

#[export] Instance Async_ret : MRet Async :=
  fun A a => ([], Returns a).

#[export] Instance Async_bind : MBind Async :=
  fun A B k m =>
    match m with
    | (t, Returns a) => let '(t', r) := k a in (t ++ t', r)
    | (t, Throws e) => (t, Throws e)
    end.

(** Calling a collaborator: the call is logged, then it completes as the
    collaborator does. *)
Definition call {A : Type} (ev : Event) (outcome : Completion A) : Async A :=
  ([ev], outcome).

(** Calling a function handed in by the caller, which the handler has no
    effect of its own to log for: it returns a value or throws. *)
Definition eval {A : Type} (outcome : Completion A) : Async A :=
  ([], outcome).

(** [try { body } catch (error) { handler(error) }] *)
Definition try_catch {A : Type} (body : Async A) (handler : Error -> Async A) : Async A :=
  match body with
  | (t, Returns a) => (t, Returns a)
  | (t, Throws e) => let '(t', r) := handler e in (t ++ t', r)
  end.

(** ** What the component gets from its hooks and imports *)

(** The mutation of [useMutation], the sink of [useTelemetryAction] and
    [handleLaunchResult] are called inside the [try] block; each may return
    or throw, and what it does is given here. [DISABLED_MESSAGE] is a
    constant of [../app/Permissions], whose text the component does not
    depend on. *)
Record Hooks : Type := {
  canLaunchPipelineExecution : bool;
  launchPipelineExecution : LaunchPipelineExecutionVariables -> Completion LaunchPipelineExecution;
  logTelemetry : TelemetryAction -> Metadata -> Completion ();
  handleLaunchResult :
    string -> LaunchPipelineExecution -> History -> Behavior -> Completion ();
  history : History;
  DISABLED_MESSAGE : string
}.

(** Modelled from the spec: [./showLaunchError] is not among the sources;
    the error presentation surface "accepts a thrown/caught error object and
    displays it to the user". *)
Definition showLaunchError (error : Error) : Async () :=
  call (ShowLaunchError error) (Returns ()).

(** [getVariables] is the caller's function: it returns [undefined] or a
    request, or it throws, as any JavaScript function may. *)
Record LaunchRootExecutionButtonProps : Type := {
  disabled : bool;
  getVariables : () -> Completion (option LaunchPipelineExecutionVariables);
  behavior : Behavior;
  props_pipelineName : string;
  title : Nullable string;
  icon : Nullable string
}.

(** ** The click handler *)

Definition onLaunch (hooks : Hooks) (props : LaunchRootExecutionButtonProps) : Async () :=
  variables ← eval (getVariables props ());
  match variables with
  | None => mret ()
  | Some variables =>
      let metadata : Metadata := ∅ in
      let metadata :=
        if truthy (solidSelection (selector (executionParams variables)))
        then <["opSelection" := Value "provided"]> metadata
        else metadata in
      let metadata :=
        <["jobName" := js_or (jobName (selector (executionParams variables)))
                             (pipelineName (selector (executionParams variables)))]>
          metadata in
      try_catch
        (result ← call (Mutation variables) (launchPipelineExecution hooks variables);
         call (Telemetry LAUNCH_RUN metadata) (logTelemetry hooks LAUNCH_RUN metadata);;
         call (HandleLaunchResult (props_pipelineName props) result (history hooks) (behavior props))
              (handleLaunchResult hooks (props_pipelineName props) result (history hooks)
                 (behavior props)))
        (fun error => showLaunchError error)
  end.

(** ** What is rendered: the props of [LaunchButton] *)

Record LaunchButtonConfiguration : Type := {
  onClick : Async ();
  config_icon : string;
  config_title : string;
  config_disabled : bool;
  tooltip : Nullable string
}.

Record LaunchButtonProps : Type := {
  runCount : nat;
  config : LaunchButtonConfiguration
}.

Definition LaunchRootExecutionButton
    (hooks : Hooks) (props : LaunchRootExecutionButtonProps) : LaunchButtonProps :=
  {| runCount := 1;
     config :=
       {| onClick := onLaunch hooks props;
          config_icon := js_or_default (icon props) "open_in_new";
          config_title := js_or_default (title props) "Launch Run";
          config_disabled := disabled props || negb (canLaunchPipelineExecution hooks);
          tooltip :=
            if negb (canLaunchPipelineExecution hooks)
            then Value (DISABLED_MESSAGE hooks)
            else Undefined |} |}.

(** ** Reading a run of the handler *)

(** The telemetry tags of lines 40-46, as one expression. *)
Definition launch_metadata (variables : LaunchPipelineExecutionVariables) : Metadata :=
  let sel := selector (executionParams variables) in
  <["jobName" := js_or (jobName sel) (pipelineName sel)]>
    (if truthy (solidSelection sel)
     then <["opSelection" := Value "provided"]> (∅ : Metadata)
     else ∅).

Definition is_network_call (ev : Event) : bool :=
  match ev with Mutation _ => true | _ => false end.

Definition is_telemetry (ev : Event) : bool :=
  match ev with Telemetry _ _ => true | _ => false end.

Definition is_result_handling (ev : Event) : bool :=
  match ev with HandleLaunchResult _ _ _ _ => true | _ => false end.

(** How many of the logged calls are of one kind. *)
Definition calls (kind : Event -> bool) (t : list Event) : nat :=
  length (List.filter kind t).

(** The request names an explicit op subset: the field holds an array. *)
Definition carries_selection (variables : LaunchPipelineExecutionVariables) : Prop :=
  exists ops, solidSelection (selector (executionParams variables)) = Value ops.

(** A name field is set: it holds a string, and not the empty one. *)
Definition name_set (field : Nullable string) : Prop :=
  exists s, field = Value s /\ s <> "".

(** A name field is empty: undefined, null or the empty string. *)
Definition name_empty (field : Nullable string) : Prop :=
  field = Undefined \/ field = Null \/ field = Value "".

(** The request names no job: both name fields are empty. *)
Definition name_absent (variables : LaunchPipelineExecutionVariables) : Prop :=
  name_empty (jobName (selector (executionParams variables))) /\
  name_empty (pipelineName (selector (executionParams variables))).

(** Two requests agree on what the telemetry tags are computed from: the two
    name fields, and whether an op selection is carried. *)
Definition same_tag_inputs (v v' : LaunchPipelineExecutionVariables) : Prop :=
  jobName (selector (executionParams v)) = jobName (selector (executionParams v')) /\
  pipelineName (selector (executionParams v)) =
    pipelineName (selector (executionParams v')) /\
  (carries_selection v <-> carries_selection v').

Definition is_error_display (ev : Event) : bool :=
  match ev with ShowLaunchError _ => true | _ => false end.

(** The line of [LaunchRootExecutionButton.tsx] a call is made from. *)
Definition call_line (ev : Event) : nat :=
  match ev with
  | Mutation _ => 49
  | Telemetry _ _ => 50
  | HandleLaunchResult _ _ _ _ => 51
  | ShowLaunchError _ => 53
  end.

(** ** Sample invocations *)

Module Samples.

Definition request (job pipeline : Nullable string) (ops : Nullable (list string))
    : LaunchPipelineExecutionVariables :=
  {| executionParams :=
       {| selector := {| jobName := job; pipelineName := pipeline; solidSelection := ops |};
          runConfigData := "{}";
          tags := [] |} |}.

Definition hello_job : LaunchPipelineExecutionVariables :=
  request (Value "hello_cereal_job") (Value "legacy_cereal") (Value ["download_cereals"]).

Definition legacy_pipeline : LaunchPipelineExecutionVariables :=
  request Undefined (Value "legacy_cereal") Null.

Definition nameless : LaunchPipelineExecutionVariables :=
  request Undefined (Value "") Undefined.

Definition button (variables : option LaunchPipelineExecutionVariables)
    : LaunchRootExecutionButtonProps :=
  {| disabled := false;
     getVariables := fun _ => Returns variables;
     behavior := open;
     props_pipelineName := "hello_cereal_job";
     title := Undefined;
     icon := Undefined |}.

Definition boom : Error := {| message := "Failed to fetch" |}.

(** Every collaborator returns; the run is created. *)
Definition all_fine : Hooks :=
  {| canLaunchPipelineExecution := true;
     launchPipelineExecution := fun _ => Returns (Success "run-1");
     logTelemetry := fun _ _ => Returns ();
     handleLaunchResult := fun _ _ _ _ => Returns ();
     history := ["/launchpad"];
     DISABLED_MESSAGE := "Disabled by your administrator" |}.

(** The mutation rejects. *)
Definition network_down : Hooks :=
  {| canLaunchPipelineExecution := true;
     launchPipelineExecution := fun _ => Throws boom;
     logTelemetry := fun _ _ => Returns ();
     handleLaunchResult := fun _ _ _ _ => Returns ();
     history := ["/launchpad"];
     DISABLED_MESSAGE := "Disabled by your administrator" |}.

(** The mutation resolves, the telemetry sink throws. *)
Definition telemetry_down : Hooks :=
  {| canLaunchPipelineExecution := true;
     launchPipelineExecution := fun _ => Returns (Success "run-1");
     logTelemetry := fun _ _ => Throws boom;
     handleLaunchResult := fun _ _ _ _ => Returns ();
     history := ["/launchpad"];
     DISABLED_MESSAGE := "Disabled by your administrator" |}.

(** The mutation resolves with a response that reports a failure. *)
Definition run_refused : Hooks :=
  {| canLaunchPipelineExecution := false;
     launchPipelineExecution := fun _ => Returns (Failure "PipelineNotFoundError");
     logTelemetry := fun _ _ => Returns ();
     handleLaunchResult := fun _ _ _ _ => Returns ();
     history := ["/launchpad"];
     DISABLED_MESSAGE := "Disabled by your administrator" |}.

(** The mutation and the telemetry sink return, the result handler throws. *)
Definition handler_down : Hooks :=
  {| canLaunchPipelineExecution := true;
     launchPipelineExecution := fun _ => Returns (Success "run-1");
     logTelemetry := fun _ _ => Returns ();
     handleLaunchResult := fun _ _ _ _ => Throws boom;
     history := ["/launchpad"];
     DISABLED_MESSAGE := "Disabled by your administrator" |}.

(** A button with a title and an icon of its own, disabled by its caller. *)
Definition reexecute_button : LaunchRootExecutionButtonProps :=
  {| disabled := true;
     getVariables := fun _ => Returns (Some hello_job);
     behavior := toast;
     props_pipelineName := "hello_cereal_job";
     title := Value "Re-execute";
     icon := Value "refresh" |}.

(** The job of [hello_job], launched with another configuration, other tags
    and another op selected. *)
Definition hello_job_reconfigured : LaunchPipelineExecutionVariables :=
  {| executionParams :=
       {| selector :=
            {| jobName := Value "hello_cereal_job";
               pipelineName := Value "legacy_cereal";
               solidSelection := Value ["find_sugariest"] |};
          runConfigData := "{ops: {find_sugariest: {config: {top: 3}}}}";
          tags := [("dagster/backfill", "nightly")] |} |}.

(** A button whose parameter provider throws. *)
Definition broken_provider : LaunchRootExecutionButtonProps :=
  {| disabled := false;
     getVariables := fun _ => Throws {| message := "Invalid YAML" |};
     behavior := open;
     props_pipelineName := "hello_cereal_job";
     title := Undefined;
     icon := Undefined |}.

End Samples.

(** * Properties *)

(** From [ev ∈ [e1; ...; en]]: one goal per position where [ev] fits. *)
Ltac in_trace H :=
  repeat (apply elem_of_cons in H as [H|H]);
  try (apply elem_of_nil in H; contradiction);
  try discriminate H;
  try (injection H as -> ->; now auto).

(** Splits on how each collaborator called in the goal completes. *)
Ltac each_completion :=
  repeat match goal with
         | |- context [match ?c with Returns _ => _ | Throws _ => _ end] =>
             destruct c as [?|?] eqn:?
         | H : context [match ?c with Returns _ => _ | Throws _ => _ end] |- _ =>
             destruct c as [?|?] eqn:?
         end.

(** ** The shape of a run *)

Section Runs.
Context (hooks : Hooks) (props : LaunchRootExecutionButtonProps).

(** A returned value is handed to the rest of the handler, nothing logged. *)
Lemma eval_returns_bind {A B : Type} (a : A) (k : A -> Async B) :
  eval (Returns a) ≫= k = k a.
Proof. unfold eval, mbind, Async_bind. now destruct (k a). Qed.

Lemma onLaunch_none :
  getVariables props () = Returns None -> onLaunch hooks props = ([], Returns ()).
Proof. intros Hnone. unfold onLaunch. now rewrite Hnone, eval_returns_bind. Qed.

(** The provider is called before the [try] block: what it throws leaves the
    handler as it is, and no collaborator has been called. *)
Lemma onLaunch_throws (e : Error) :
  getVariables props () = Throws e -> onLaunch hooks props = ([], Throws e).
Proof. intros Hthrows. unfold onLaunch. now rewrite Hthrows. Qed.

(** With a request at hand the handler runs the [try] block; whatever is
    thrown inside it ends in the error dialog. *)
Lemma onLaunch_some (variables : LaunchPipelineExecutionVariables) :
  getVariables props () = Returns (Some variables) ->
  onLaunch hooks props =
    let metadata := launch_metadata variables in
    let submit := Mutation variables in
    let emit := Telemetry LAUNCH_RUN metadata in
    match launchPipelineExecution hooks variables with
    | Throws e => ([submit; ShowLaunchError e], Returns ())
    | Returns result =>
        let handle :=
          HandleLaunchResult (props_pipelineName props) result (history hooks)
            (behavior props) in
        match logTelemetry hooks LAUNCH_RUN metadata with
        | Throws e => ([submit; emit; ShowLaunchError e], Returns ())
        | Returns _ =>
            match handleLaunchResult hooks (props_pipelineName props) result
                    (history hooks) (behavior props) with
            | Throws e => ([submit; emit; handle; ShowLaunchError e], Returns ())
            | Returns _ => ([submit; emit; handle], Returns ())
            end
        end
    end.
Proof.
  intros Hsome. unfold onLaunch. rewrite Hsome, eval_returns_bind. cbv zeta.
  change (<["jobName":=_]> _) with (launch_metadata variables).
  destruct (launchPipelineExecution hooks variables) as [result|e]; [|reflexivity].
  destruct (logTelemetry hooks LAUNCH_RUN (launch_metadata variables)) as [[]|e];
    [|reflexivity].
  unfold try_catch, call, mbind, Async_bind.
  destruct (handleLaunchResult hooks (props_pipelineName props) result (history hooks)
              (behavior props)) as [[]|e]; reflexivity.
Qed.

(** The only telemetry event a run can hold is [LAUNCH_RUN] with the tags
    computed from the request. *)
Lemma telemetry_event_inv (action : TelemetryAction) (metadata : Metadata) :
  Telemetry action metadata ∈ trace (onLaunch hooks props) ->
  exists variables,
    getVariables props () = Returns (Some variables) /\
    action = LAUNCH_RUN /\ metadata = launch_metadata variables.
Proof.
  destruct (getVariables props ()) as [[variables|]|thrown] eqn:Hget.
  - rewrite (onLaunch_some variables Hget). cbv zeta. intros Hin.
    exists variables. split; [reflexivity|].
    each_completion; cbn in Hin; in_trace Hin.
  - rewrite (onLaunch_none Hget). cbn. intros Hin. in_trace Hin.
  - rewrite (onLaunch_throws thrown Hget). cbn. intros Hin. in_trace Hin.
Qed.

End Runs.

(** ** Sample runs *)

Example run_all_fine :
  onLaunch Samples.all_fine (Samples.button (Some Samples.hello_job)) =
    ([Mutation Samples.hello_job;
      Telemetry LAUNCH_RUN
        {[ "opSelection" := Value "provided"; "jobName" := Value "hello_cereal_job" ]};
      HandleLaunchResult "hello_cereal_job" (Success "run-1") ["/launchpad"] open],
     Returns ()).
Proof. vm_compute. reflexivity. Qed.

(** A response that reports a failure is still a resolved call. *)
Example run_refused :
  onLaunch Samples.run_refused (Samples.button (Some Samples.legacy_pipeline)) =
    ([Mutation Samples.legacy_pipeline;
      Telemetry LAUNCH_RUN {[ "jobName" := Value "legacy_cereal" ]};
      HandleLaunchResult "hello_cereal_job" (Failure "PipelineNotFoundError")
        ["/launchpad"] open],
     Returns ()).
Proof. vm_compute. reflexivity. Qed.

Example run_telemetry_down :
  onLaunch Samples.telemetry_down (Samples.button (Some Samples.legacy_pipeline)) =
    ([Mutation Samples.legacy_pipeline;
      Telemetry LAUNCH_RUN {[ "jobName" := Value "legacy_cereal" ]};
      ShowLaunchError Samples.boom],
     Returns ()).
Proof. vm_compute. reflexivity. Qed.

(** An empty array of ops is still an array. *)
Example empty_selection_is_provided :
  launch_metadata (Samples.request (Value "") (Value "legacy_cereal") (Value [])) =
    {[ "opSelection" := Value "provided"; "jobName" := Value "legacy_cereal" ]}.
Proof. vm_compute. reflexivity. Qed.

Example rendered_without_permission :
  let rendered :=
    config (LaunchRootExecutionButton Samples.run_refused (Samples.button None)) in
  (config_icon rendered, config_title rendered, config_disabled rendered, tooltip rendered) =
    ("open_in_new", "Launch Run", true, Value "Disabled by your administrator").
Proof. reflexivity. Qed.

(** ** The tags *)

Lemma string_truthy_spec (s : string) : truthy s = true <-> s <> "".
Proof.
  unfold truthy, string_truthy.
  destruct (String.eqb_spec s "") as [->|Hne]; cbn; split; congruence.
Qed.

Lemma truthy_name_set (field : Nullable string) :
  truthy field = true <-> name_set field.
Proof.
  unfold name_set. destruct field as [| |s].
  - split; [discriminate | intros (s & Hs & _); discriminate Hs].
  - split; [discriminate | intros (s & Hs & _); discriminate Hs].
  - change (truthy (Value s)) with (truthy s). rewrite string_truthy_spec.
    split; [eauto | intros (s' & [= ->] & Hne); exact Hne].
Qed.

Lemma truthy_name_empty (field : Nullable string) :
  truthy field = false <-> name_empty field.
Proof.
  unfold name_empty. destruct field as [| |s].
  - split; auto.
  - split; auto.
  - change (truthy (Value s)) with (truthy s).
    destruct (truthy s) eqn:Hs.
    + apply string_truthy_spec in Hs.
      split; [discriminate | intros [H|[H|[= H]]]; congruence].
    + split; [intros _ | reflexivity].
      right; right. f_equal.
      destruct (String.eqb_spec s "") as [->|Hne]; [reflexivity|].
      apply string_truthy_spec in Hne. congruence.
Qed.

Lemma truthy_selection (variables : LaunchPipelineExecutionVariables) :
  truthy (solidSelection (selector (executionParams variables))) = true <->
  carries_selection variables.
Proof.
  unfold carries_selection.
  destruct (solidSelection _) as [| |ops]; cbn; split;
    try discriminate; try (intros [? ?]; discriminate); eauto.
Qed.

Lemma launch_metadata_jobName (variables : LaunchPipelineExecutionVariables) :
  launch_metadata variables !! "jobName" =
    Some (js_or (jobName (selector (executionParams variables)))
                (pipelineName (selector (executionParams variables)))).
Proof. unfold launch_metadata. cbv zeta. apply lookup_insert_eq. Qed.

Lemma launch_metadata_opSelection (variables : LaunchPipelineExecutionVariables) :
  launch_metadata variables !! "opSelection" =
    if truthy (solidSelection (selector (executionParams variables)))
    then Some (Value "provided") else None.
Proof.
  unfold launch_metadata. cbv zeta.
  rewrite lookup_insert_ne by discriminate.
  destruct (truthy _); [apply lookup_insert_eq | apply lookup_empty].
Qed.

Lemma calls_cons (kind : Event -> bool) (ev : Event) (t : list Event) :
  calls kind (ev :: t) = (if kind ev then 1 else 0) + calls kind t.
Proof. unfold calls. cbn. now destruct (kind ev). Qed.

(** ** The parameter gate *)

(** C1. When the parameter provider returns no request, the handler calls no
    collaborator at all, so it makes no network call and emits no telemetry,
    and it returns normally: a silent no-op. *)
Theorem no_request_is_silent_noop
    (hooks : Hooks) (props : LaunchRootExecutionButtonProps) :
  getVariables props () = Returns None ->
  trace (onLaunch hooks props) = [] /\
  calls is_network_call (trace (onLaunch hooks props)) = 0 /\
  calls is_telemetry (trace (onLaunch hooks props)) = 0 /\
  completion (onLaunch hooks props) = Returns ().
Proof.
  intros Hnone. rewrite (onLaunch_none hooks props Hnone). now repeat split.
Qed.

Lemma no_request_is_silent_noop_witness :
  getVariables (Samples.button None) () = Returns None /\
  trace (onLaunch Samples.network_down (Samples.button None)) = [] /\
  calls is_network_call (trace (onLaunch Samples.network_down (Samples.button None))) = 0 /\
  calls is_telemetry (trace (onLaunch Samples.network_down (Samples.button None))) = 0 /\
  completion (onLaunch Samples.network_down (Samples.button None)) = Returns ().
Proof.
  split; [reflexivity|].
  apply (no_request_is_silent_noop Samples.network_down (Samples.button None)).
  reflexivity.
Defined.

(** C2, as the specification words it, fails: the handler has no check on the
    name. A request whose job name is undefined and whose pipeline name is the
    empty string is submitted, and telemetry is emitted for it. *)
Lemma nameless_request_is_submitted :
  name_absent Samples.nameless /\
  getVariables (Samples.button (Some Samples.nameless)) () = Returns (Some Samples.nameless) /\
  calls is_network_call
    (trace (onLaunch Samples.all_fine (Samples.button (Some Samples.nameless)))) = 1 /\
  calls is_telemetry
    (trace (onLaunch Samples.all_fine (Samples.button (Some Samples.nameless)))) = 1.
Proof.
  split; [|repeat split].
  split; [left | right; right]; reflexivity.
Qed.

(** C2, amended. A request whose job name and pipeline name are both empty is
    not aborted: the submission call is made, once and first, with that very
    request; when the call resolves telemetry is emitted once, and its jobName
    tag is the (empty) pipeline-name field. The only abort without side
    effects is the one taken when the provider returns no request: a run that
    returns normally without a submission call is a run without a request. *)
Theorem absent_name_is_still_submitted
    (hooks : Hooks) (props : LaunchRootExecutionButtonProps) :
  (forall variables,
     getVariables props () = Returns (Some variables) ->
     name_absent variables ->
     (exists rest, trace (onLaunch hooks props) = Mutation variables :: rest) /\
     calls is_network_call (trace (onLaunch hooks props)) = 1 /\
     (forall result,
        launchPipelineExecution hooks variables = Returns result ->
        calls is_telemetry (trace (onLaunch hooks props)) = 1 /\
        exists metadata,
          Telemetry LAUNCH_RUN metadata ∈ trace (onLaunch hooks props) /\
          metadata !! "jobName" =
            Some (pipelineName (selector (executionParams variables))))) /\
  (completion (onLaunch hooks props) = Returns () ->
   calls is_network_call (trace (onLaunch hooks props)) = 0 ->
   getVariables props () = Returns None).
Proof.
  split.
  - intros variables Hsome [Hjob _].
    rewrite (onLaunch_some hooks props variables Hsome). cbv zeta.
    destruct (launchPipelineExecution hooks variables) as [result|e].
    + assert (Htag : launch_metadata variables !! "jobName" =
                     Some (pipelineName (selector (executionParams variables)))).
      { rewrite launch_metadata_jobName. unfold js_or.
        apply truthy_name_empty in Hjob. now rewrite Hjob. }
      each_completion;
        (split; [eexists; reflexivity|]; split; [reflexivity|]);
        intros ? _; (split; [reflexivity|]);
        exists (launch_metadata variables); (split; [|exact Htag]);
        cbn; apply elem_of_cons; right; apply elem_of_cons; now left.
    + split; [eexists; reflexivity|]. split; [reflexivity|]. intros ? [=].
  - intros Hreturns Hquiet.
    destruct (getVariables props ()) as [[variables|]|thrown] eqn:Hget.
    + exfalso. revert Hquiet.
      rewrite (onLaunch_some hooks props variables Hget). cbv zeta.
      each_completion; unfold trace, fst; rewrite calls_cons; cbn; lia.
    + reflexivity.
    + rewrite (onLaunch_throws hooks props thrown Hget) in Hreturns.
      discriminate Hreturns.
Qed.

Lemma absent_name_is_still_submitted_witness :
  getVariables (Samples.button (Some Samples.nameless)) () =
    Returns (Some Samples.nameless) /\
  name_absent Samples.nameless /\
  exists rest,
    trace (onLaunch Samples.all_fine (Samples.button (Some Samples.nameless))) =
      Mutation Samples.nameless :: rest.
Proof.
  split; [reflexivity|].
  assert (Habsent : name_absent Samples.nameless)
    by (split; [left | right; right]; reflexivity).
  split; [exact Habsent|].
  apply (proj1 (absent_name_is_still_submitted Samples.all_fine
                  (Samples.button (Some Samples.nameless)))
           Samples.nameless eq_refl Habsent).
Defined.

(** ** Telemetry and the submission call *)

(** C3. Once the submission call is reached, telemetry is emitted exactly when
    the call completes without throwing. If it resolves, whatever response it
    resolves with, the telemetry call is the very next call, no second one
    follows, and the result handler, which inspects the response, is only
    called after it. If it throws, no telemetry call is made. *)
Theorem telemetry_iff_submission_resolves
    (hooks : Hooks) (props : LaunchRootExecutionButtonProps)
    (variables : LaunchPipelineExecutionVariables) :
  getVariables props () = Returns (Some variables) ->
  (forall result,
     launchPipelineExecution hooks variables = Returns result ->
     exists rest,
       trace (onLaunch hooks props) =
         Mutation variables :: Telemetry LAUNCH_RUN (launch_metadata variables) :: rest /\
       calls is_telemetry rest = 0 /\
       calls is_telemetry (trace (onLaunch hooks props)) = 1) /\
  (forall e,
     launchPipelineExecution hooks variables = Throws e ->
     calls is_telemetry (trace (onLaunch hooks props)) = 0).
Proof.
  intros Hsome. rewrite (onLaunch_some hooks props variables Hsome). cbv zeta.
  destruct (launchPipelineExecution hooks variables) as [result|e]; split;
    try (intros ? [=]; fail).
  - intros ? [= <-].
    each_completion; eexists; (split; [reflexivity|]); split; reflexivity.
  - intros ? _. reflexivity.
Qed.

Lemma telemetry_iff_submission_resolves_witness :
  (forall result,
     launchPipelineExecution Samples.all_fine Samples.hello_job = Returns result ->
     exists rest,
       trace (onLaunch Samples.all_fine (Samples.button (Some Samples.hello_job))) =
         Mutation Samples.hello_job
           :: Telemetry LAUNCH_RUN (launch_metadata Samples.hello_job) :: rest /\
       calls is_telemetry rest = 0 /\
       calls is_telemetry
         (trace (onLaunch Samples.all_fine (Samples.button (Some Samples.hello_job)))) = 1) /\
  (forall e,
     launchPipelineExecution Samples.all_fine Samples.hello_job = Throws e ->
     calls is_telemetry
       (trace (onLaunch Samples.all_fine (Samples.button (Some Samples.hello_job)))) = 0).
Proof.
  apply (telemetry_iff_submission_resolves Samples.all_fine
           (Samples.button (Some Samples.hello_job)) Samples.hello_job).
  reflexivity.
Defined.

(** C4. When the submission call throws, the error dialog is called with
    exactly the thrown error and nothing else happens after the throw: no
    telemetry, no result handling. The handler itself returns normally, so
    the error does not leave it. *)
Theorem thrown_submission_is_shown
    (hooks : Hooks) (props : LaunchRootExecutionButtonProps)
    (variables : LaunchPipelineExecutionVariables) (e : Error) :
  getVariables props () = Returns (Some variables) ->
  launchPipelineExecution hooks variables = Throws e ->
  trace (onLaunch hooks props) = [Mutation variables; ShowLaunchError e] /\
  calls is_telemetry (trace (onLaunch hooks props)) = 0 /\
  calls is_result_handling (trace (onLaunch hooks props)) = 0 /\
  completion (onLaunch hooks props) = Returns ().
Proof.
  intros Hsome Hthrow.
  rewrite (onLaunch_some hooks props variables Hsome). cbv zeta.
  rewrite Hthrow. now repeat split.
Qed.

Lemma thrown_submission_is_shown_witness :
  trace (onLaunch Samples.network_down (Samples.button (Some Samples.hello_job))) =
    [Mutation Samples.hello_job; ShowLaunchError Samples.boom] /\
  calls is_telemetry
    (trace (onLaunch Samples.network_down (Samples.button (Some Samples.hello_job)))) = 0 /\
  calls is_result_handling
    (trace (onLaunch Samples.network_down (Samples.button (Some Samples.hello_job)))) = 0 /\
  completion (onLaunch Samples.network_down (Samples.button (Some Samples.hello_job))) =
    Returns ().
Proof.
  apply (thrown_submission_is_shown Samples.network_down
           (Samples.button (Some Samples.hello_job)) Samples.hello_job Samples.boom);
    reflexivity.
Defined.

(** ** The telemetry tags *)

(** C5. In every telemetry event of a run, the metadata holds opSelection =
    "provided" if and only if the request carries an explicit op selection;
    without one the key opSelection is absent. *)
Theorem opSelection_iff_selection_given
    (hooks : Hooks) (props : LaunchRootExecutionButtonProps)
    (variables : LaunchPipelineExecutionVariables)
    (action : TelemetryAction) (metadata : Metadata) :
  getVariables props () = Returns (Some variables) ->
  Telemetry action metadata ∈ trace (onLaunch hooks props) ->
  (metadata !! "opSelection" = Some (Value "provided") <-> carries_selection variables) /\
  (~ carries_selection variables -> metadata !! "opSelection" = None).
Proof.
  intros Hsome Hin.
  destruct (telemetry_event_inv hooks props action metadata Hin)
    as (variables' & Hsome' & _ & ->).
  assert (variables' = variables) as -> by congruence.
  rewrite launch_metadata_opSelection, <- truthy_selection.
  destruct (truthy (solidSelection (selector (executionParams variables)))).
  - split; [tauto | intros Hno; now destruct Hno].
  - split; [split; discriminate | reflexivity].
Qed.

Lemma opSelection_iff_selection_given_witness :
  (launch_metadata Samples.hello_job !! "opSelection" = Some (Value "provided") <->
   carries_selection Samples.hello_job) /\
  (~ carries_selection Samples.hello_job ->
   launch_metadata Samples.hello_job !! "opSelection" = None).
Proof.
  apply (opSelection_iff_selection_given Samples.all_fine
           (Samples.button (Some Samples.hello_job)) Samples.hello_job LAUNCH_RUN
           (launch_metadata Samples.hello_job)).
  - reflexivity.
  - apply elem_of_cons; right. apply elem_of_cons; left. reflexivity.
Defined.

(** C6. In every telemetry event of a run, the jobName tag is the request's
    job-name field when that field is set, and the legacy pipeline-name field
    otherwise. *)
Theorem jobName_prefers_job_name_field
    (hooks : Hooks) (props : LaunchRootExecutionButtonProps)
    (variables : LaunchPipelineExecutionVariables)
    (action : TelemetryAction) (metadata : Metadata) :
  getVariables props () = Returns (Some variables) ->
  Telemetry action metadata ∈ trace (onLaunch hooks props) ->
  (name_set (jobName (selector (executionParams variables))) ->
   metadata !! "jobName" = Some (jobName (selector (executionParams variables)))) /\
  (~ name_set (jobName (selector (executionParams variables))) ->
   metadata !! "jobName" = Some (pipelineName (selector (executionParams variables)))).
Proof.
  intros Hsome Hin.
  destruct (telemetry_event_inv hooks props action metadata Hin)
    as (variables' & Hsome' & _ & ->).
  assert (variables' = variables) as -> by congruence.
  rewrite launch_metadata_jobName. unfold js_or.
  rewrite <- truthy_name_set.
  destruct (truthy (jobName (selector (executionParams variables)))).
  - split; [reflexivity | intros Hno; now destruct Hno].
  - split; [discriminate | reflexivity].
Qed.

Lemma jobName_prefers_job_name_field_witness :
  (name_set (jobName (selector (executionParams Samples.legacy_pipeline))) ->
   launch_metadata Samples.legacy_pipeline !! "jobName" =
     Some (jobName (selector (executionParams Samples.legacy_pipeline)))) /\
  (~ name_set (jobName (selector (executionParams Samples.legacy_pipeline))) ->
   launch_metadata Samples.legacy_pipeline !! "jobName" = Some (Value "legacy_cereal")).
Proof.
  apply (jobName_prefers_job_name_field Samples.all_fine
           (Samples.button (Some Samples.legacy_pipeline)) Samples.legacy_pipeline
           LAUNCH_RUN (launch_metadata Samples.legacy_pipeline)).
  - reflexivity.
  - apply elem_of_cons; right. apply elem_of_cons; left. reflexivity.
Defined.

(** C10. Every telemetry event of a run has the key jobName in its metadata,
    whatever the request; when both name fields are empty the value stored
    under it is the pipeline-name field, empty as it is. *)
Theorem jobName_always_present
    (hooks : Hooks) (props : LaunchRootExecutionButtonProps)
    (action : TelemetryAction) (metadata : Metadata) :
  Telemetry action metadata ∈ trace (onLaunch hooks props) ->
  is_Some (metadata !! "jobName") /\
  (forall variables,
     getVariables props () = Returns (Some variables) ->
     name_absent variables ->
     metadata !! "jobName" = Some (pipelineName (selector (executionParams variables)))).
Proof.
  intros Hin.
  destruct (telemetry_event_inv hooks props action metadata Hin)
    as (variables & Hsome & _ & ->).
  rewrite launch_metadata_jobName. split; [eauto|].
  intros variables' Hsome' [Hjob _].
  assert (variables' = variables) as -> by congruence.
  apply truthy_name_empty in Hjob. unfold js_or. now rewrite Hjob.
Qed.

Lemma jobName_always_present_witness :
  is_Some (launch_metadata Samples.nameless !! "jobName") /\
  (forall variables,
     getVariables (Samples.button (Some Samples.nameless)) () = Returns (Some variables) ->
     name_absent variables ->
     launch_metadata Samples.nameless !! "jobName" =
       Some (pipelineName (selector (executionParams variables)))).
Proof.
  apply (jobName_always_present Samples.all_fine (Samples.button (Some Samples.nameless))
           LAUNCH_RUN (launch_metadata Samples.nameless)).
  apply elem_of_cons; right. apply elem_of_cons; left. reflexivity.
Defined.

(** ** One submission, no retry *)

(** C7. Once the provider has returned a request, the mutation is called
    exactly once, however the calls of the run complete, and at most one
    telemetry call is made. *)
Theorem one_submission_per_invocation
    (hooks : Hooks) (props : LaunchRootExecutionButtonProps)
    (variables : LaunchPipelineExecutionVariables) :
  getVariables props () = Returns (Some variables) ->
  calls is_network_call (trace (onLaunch hooks props)) = 1 /\
  calls is_telemetry (trace (onLaunch hooks props)) <= 1.
Proof.
  intros Hsome. rewrite (onLaunch_some hooks props variables Hsome). cbv zeta.
  each_completion; unfold trace, fst; rewrite !calls_cons; cbn; lia.
Qed.

Lemma one_submission_per_invocation_witness :
  calls is_network_call
    (trace (onLaunch Samples.telemetry_down (Samples.button (Some Samples.hello_job)))) = 1 /\
  calls is_telemetry
    (trace (onLaunch Samples.telemetry_down (Samples.button (Some Samples.hello_job)))) <= 1.
Proof.
  apply (one_submission_per_invocation Samples.telemetry_down
           (Samples.button (Some Samples.hello_job)) Samples.hello_job).
  reflexivity.
Defined.

(** ** What the [try] block covers *)

(** C9, as the specification words it, fails: the parameter provider is
    called before the [try] block, so an error it throws is not caught. The
    handler rejects with it, and the error dialog is not shown. *)
Lemma throwing_provider_rejects :
  getVariables Samples.broken_provider () = Throws {| message := "Invalid YAML" |} /\
  completion (onLaunch Samples.all_fine Samples.broken_provider) =
    Throws {| message := "Invalid YAML" |} /\
  trace (onLaunch Samples.all_fine Samples.broken_provider) = [].
Proof. repeat split. Qed.

(** C9, amended. The [try] block holds the telemetry call and the result
    handling as well as the submission call: an error thrown by the telemetry
    sink, or by the result handler after a resolved submission, goes to the
    error dialog, that very error. So the handler returns normally whenever
    the parameter provider returns; if the provider throws, the handler
    rejects with that error and has called no collaborator. *)
Theorem try_covers_telemetry_and_result_handling
    (hooks : Hooks) (props : LaunchRootExecutionButtonProps) :
  (forall request,
     getVariables props () = Returns request ->
     completion (onLaunch hooks props) = Returns ()) /\
  (forall e,
     getVariables props () = Throws e ->
     onLaunch hooks props = ([], Throws e)) /\
  (forall variables result e,
     getVariables props () = Returns (Some variables) ->
     launchPipelineExecution hooks variables = Returns result ->
     (logTelemetry hooks LAUNCH_RUN (launch_metadata variables) = Throws e ->
      trace (onLaunch hooks props) =
        [Mutation variables;
         Telemetry LAUNCH_RUN (launch_metadata variables);
         ShowLaunchError e]) /\
     (logTelemetry hooks LAUNCH_RUN (launch_metadata variables) = Returns () ->
      handleLaunchResult hooks (props_pipelineName props) result (history hooks)
        (behavior props) = Throws e ->
      trace (onLaunch hooks props) =
        [Mutation variables;
         Telemetry LAUNCH_RUN (launch_metadata variables);
         HandleLaunchResult (props_pipelineName props) result (history hooks)
           (behavior props);
         ShowLaunchError e])).
Proof.
  split; [|split].
  - intros [variables|] Hget.
    + rewrite (onLaunch_some hooks props variables Hget). cbv zeta.
      each_completion; reflexivity.
    + now rewrite (onLaunch_none hooks props Hget).
  - intros e Hget. exact (onLaunch_throws hooks props e Hget).
  - intros variables result e Hsome Hlaunch.
    rewrite (onLaunch_some hooks props variables Hsome). cbv zeta.
    rewrite Hlaunch. split.
    + intros ->. reflexivity.
    + intros -> ->. reflexivity.
Qed.

(** ** The permission gate *)

(** C8. Without the launch permission the button is rendered disabled, whatever
    [props.disabled] says, with the disabled-reason message as its tooltip;
    with the permission no tooltip is set. *)
Theorem no_permission_disables_button
    (hooks : Hooks) (props : LaunchRootExecutionButtonProps) :
  (canLaunchPipelineExecution hooks = false ->
   config_disabled (config (LaunchRootExecutionButton hooks props)) = true /\
   tooltip (config (LaunchRootExecutionButton hooks props)) = Value (DISABLED_MESSAGE hooks)) /\
  (canLaunchPipelineExecution hooks = true ->
   tooltip (config (LaunchRootExecutionButton hooks props)) = Undefined).
Proof.
  cbn. split; intros ->; cbn; [|reflexivity].
  split; [apply orb_true_r | reflexivity].
Qed.

(** * Further properties of the component *)

(** ** The calls of a run, one by one *)

(** X1. The request that is submitted is the one the provider returned,
    untouched, and every request the provider returns is submitted. *)
Theorem submitted_request_is_the_provided_one
    (hooks : Hooks) (props : LaunchRootExecutionButtonProps)
    (variables : LaunchPipelineExecutionVariables) :
  Mutation variables ∈ trace (onLaunch hooks props) <->
  getVariables props () = Returns (Some variables).
Proof.
  split.
  - destruct (getVariables props ()) as [[provided|]|thrown] eqn:Hget.
    + rewrite (onLaunch_some hooks props provided Hget). cbv zeta. intros Hin.
      each_completion; cbn in Hin;
        repeat (apply elem_of_cons in Hin as [Hin|Hin]);
        try (apply elem_of_nil in Hin; contradiction);
        congruence.
    + rewrite (onLaunch_none hooks props Hget). cbn. intros Hin.
      apply elem_of_nil in Hin. contradiction.
    + rewrite (onLaunch_throws hooks props thrown Hget). cbn. intros Hin.
      apply elem_of_nil in Hin. contradiction.
  - intros Hsome. rewrite (onLaunch_some hooks props variables Hsome). cbv zeta.
    each_completion; cbn; apply elem_of_cons; now left.
Qed.

(** X2. Whenever the result handler is called, it is called with the
    pipeline name and the behavior of the props, the history of the router,
    and the response the mutation resolved with for the provided request;
    and the telemetry sink has returned before. *)
Theorem result_handler_gets_the_response
    (hooks : Hooks) (props : LaunchRootExecutionButtonProps)
    (name : string) (result : LaunchPipelineExecution) (h : History) (b : Behavior) :
  HandleLaunchResult name result h b ∈ trace (onLaunch hooks props) ->
  name = props_pipelineName props /\ h = history hooks /\ b = behavior props /\
  exists variables,
    getVariables props () = Returns (Some variables) /\
    launchPipelineExecution hooks variables = Returns result /\
    logTelemetry hooks LAUNCH_RUN (launch_metadata variables) = Returns ().
Proof.
  destruct (getVariables props ()) as [[variables|]|thrown] eqn:Hget.
  - rewrite (onLaunch_some hooks props variables Hget). cbv zeta. intros Hin.
    destruct (launchPipelineExecution hooks variables) as [response|e] eqn:Hlaunch;
      [destruct (logTelemetry hooks LAUNCH_RUN (launch_metadata variables))
         as [[]|e] eqn:Hlog;
       [destruct (handleLaunchResult hooks (props_pipelineName props) response
                    (history hooks) (behavior props)) as [[]|e]|]|];
      cbn in Hin;
      repeat (apply elem_of_cons in Hin as [Hin|Hin]);
      try (apply elem_of_nil in Hin; contradiction);
      try discriminate Hin;
      injection Hin as -> -> -> ->; repeat (split; [reflexivity|]);
      exists variables; repeat split; assumption.
  - rewrite (onLaunch_none hooks props Hget). cbn. intros Hin.
    apply elem_of_nil in Hin. contradiction.
  - rewrite (onLaunch_throws hooks props thrown Hget). cbn. intros Hin.
    apply elem_of_nil in Hin. contradiction.
Qed.

Lemma result_handler_gets_the_response_witness :
  "hello_cereal_job" = props_pipelineName Samples.reexecute_button /\
  ["/launchpad"] = history Samples.run_refused /\
  toast = behavior Samples.reexecute_button /\
  exists variables,
    getVariables Samples.reexecute_button () = Returns (Some variables) /\
    launchPipelineExecution Samples.run_refused variables =
      Returns (Failure "PipelineNotFoundError") /\
    logTelemetry Samples.run_refused LAUNCH_RUN (launch_metadata variables) = Returns ().
Proof.
  apply (result_handler_gets_the_response Samples.run_refused Samples.reexecute_button
           "hello_cereal_job" (Failure "PipelineNotFoundError") ["/launchpad"] toast).
  apply elem_of_cons; right. apply elem_of_cons; right. apply elem_of_cons; left.
  reflexivity.
Defined.

(** X3. With a request at hand, the result handler is called, once, exactly
    when the mutation resolves and the telemetry sink returns; an error
    thrown by the sink keeps the response from being handled at all. *)
Theorem result_handling_iff_telemetry_returns
    (hooks : Hooks) (props : LaunchRootExecutionButtonProps)
    (variables : LaunchPipelineExecutionVariables) :
  getVariables props () = Returns (Some variables) ->
  calls is_result_handling (trace (onLaunch hooks props)) <= 1 /\
  (calls is_result_handling (trace (onLaunch hooks props)) = 1 <->
   (exists result, launchPipelineExecution hooks variables = Returns result) /\
   logTelemetry hooks LAUNCH_RUN (launch_metadata variables) = Returns ()).
Proof.
  intros Hsome. rewrite (onLaunch_some hooks props variables Hsome). cbv zeta.
  destruct (launchPipelineExecution hooks variables) as [response|e];
    [destruct (logTelemetry hooks LAUNCH_RUN (launch_metadata variables)) as [[]|e];
     [destruct (handleLaunchResult hooks (props_pipelineName props) response
                  (history hooks) (behavior props)) as [[]|e]|]|];
    unfold trace, fst; rewrite !calls_cons; cbn;
    (split; [lia|]);
    (split; [intros Hone | intros [[? Hlaunch] Hlog]]);
    first [congruence | eauto].
Qed.

Lemma result_handling_iff_telemetry_returns_witness :
  calls is_result_handling
    (trace (onLaunch Samples.telemetry_down (Samples.button (Some Samples.hello_job)))) <= 1 /\
  (calls is_result_handling
     (trace (onLaunch Samples.telemetry_down (Samples.button (Some Samples.hello_job)))) = 1 <->
   (exists result,
      launchPipelineExecution Samples.telemetry_down Samples.hello_job = Returns result) /\
   logTelemetry Samples.telemetry_down LAUNCH_RUN (launch_metadata Samples.hello_job) =
     Returns ()).
Proof.
  apply (result_handling_iff_telemetry_returns Samples.telemetry_down
           (Samples.button (Some Samples.hello_job)) Samples.hello_job).
  reflexivity.
Defined.

(** ** The error dialog *)

(** X4. An error that reaches the error dialog is the one thrown by the
    first call of the [try] block that threw: the mutation, or else the
    telemetry sink, or else the result handler. The dialog is never shown
    with an error of the handler's own. *)
Theorem shown_error_was_thrown
    (hooks : Hooks) (props : LaunchRootExecutionButtonProps) (e : Error) :
  ShowLaunchError e ∈ trace (onLaunch hooks props) ->
  exists variables,
    getVariables props () = Returns (Some variables) /\
    (launchPipelineExecution hooks variables = Throws e \/
     exists result,
       launchPipelineExecution hooks variables = Returns result /\
       (logTelemetry hooks LAUNCH_RUN (launch_metadata variables) = Throws e \/
        logTelemetry hooks LAUNCH_RUN (launch_metadata variables) = Returns () /\
        handleLaunchResult hooks (props_pipelineName props) result (history hooks)
          (behavior props) = Throws e)).
Proof.
  destruct (getVariables props ()) as [[variables|]|thrown] eqn:Hget.
  - rewrite (onLaunch_some hooks props variables Hget). cbv zeta. intros Hin.
    exists variables. split; [reflexivity|].
    destruct (launchPipelineExecution hooks variables) as [response|e1] eqn:Hlaunch;
      [destruct (logTelemetry hooks LAUNCH_RUN (launch_metadata variables))
         as [[]|e2] eqn:Hlog;
       [destruct (handleLaunchResult hooks (props_pipelineName props) response
                    (history hooks) (behavior props)) as [[]|e3] eqn:Hhandle|]|];
      cbn in Hin;
      repeat (apply elem_of_cons in Hin as [Hin|Hin]);
      try (apply elem_of_nil in Hin; contradiction);
      try discriminate Hin;
      injection Hin as ->.
    + right. exists response. split; [reflexivity|]. right. split; [reflexivity|].
      exact Hhandle.
    + right. exists response. split; [reflexivity|]. now left.
    + now left.
  - rewrite (onLaunch_none hooks props Hget). cbn. intros Hin.
    apply elem_of_nil in Hin. contradiction.
  - rewrite (onLaunch_throws hooks props thrown Hget). cbn. intros Hin.
    apply elem_of_nil in Hin. contradiction.
Qed.

Lemma shown_error_was_thrown_witness :
  exists variables,
    getVariables (Samples.button (Some Samples.hello_job)) () = Returns (Some variables) /\
    (launchPipelineExecution Samples.handler_down variables = Throws Samples.boom \/
     exists result,
       launchPipelineExecution Samples.handler_down variables = Returns result /\
       (logTelemetry Samples.handler_down LAUNCH_RUN (launch_metadata variables) =
          Throws Samples.boom \/
        logTelemetry Samples.handler_down LAUNCH_RUN (launch_metadata variables) =
          Returns () /\
        handleLaunchResult Samples.handler_down
          (props_pipelineName (Samples.button (Some Samples.hello_job))) result
          (history Samples.handler_down)
          (behavior (Samples.button (Some Samples.hello_job))) = Throws Samples.boom)).
Proof.
  apply (shown_error_was_thrown Samples.handler_down
           (Samples.button (Some Samples.hello_job)) Samples.boom).
  do 3 (apply elem_of_cons; right). apply elem_of_cons; left. reflexivity.
Defined.

(** X5. With a request at hand, the error dialog is shown at most once, and
    it is not shown exactly when the mutation, the telemetry sink and the
    result handler all return: a response that reports a failure is not an
    error for the handler. *)
Theorem error_dialog_iff_a_call_throws
    (hooks : Hooks) (props : LaunchRootExecutionButtonProps)
    (variables : LaunchPipelineExecutionVariables) :
  getVariables props () = Returns (Some variables) ->
  calls is_error_display (trace (onLaunch hooks props)) <= 1 /\
  (calls is_error_display (trace (onLaunch hooks props)) = 0 <->
   exists result,
     launchPipelineExecution hooks variables = Returns result /\
     logTelemetry hooks LAUNCH_RUN (launch_metadata variables) = Returns () /\
     handleLaunchResult hooks (props_pipelineName props) result (history hooks)
       (behavior props) = Returns ()).
Proof.
  intros Hsome. rewrite (onLaunch_some hooks props variables Hsome). cbv zeta.
  destruct (launchPipelineExecution hooks variables) as [response|e] eqn:Hlaunch;
    [destruct (logTelemetry hooks LAUNCH_RUN (launch_metadata variables))
       as [[]|e] eqn:Hlog;
     [destruct (handleLaunchResult hooks (props_pipelineName props) response
                  (history hooks) (behavior props)) as [[]|e] eqn:Hhandle|]|];
    unfold trace, fst; rewrite !calls_cons; cbn;
    (split; [lia|]);
    (split; [intros Hnone | intros (result & Hl & Ht & Hh)]);
    first [congruence | eauto].
Qed.

Lemma error_dialog_iff_a_call_throws_witness :
  calls is_error_display
    (trace (onLaunch Samples.run_refused (Samples.button (Some Samples.hello_job)))) <= 1 /\
  (calls is_error_display
     (trace (onLaunch Samples.run_refused (Samples.button (Some Samples.hello_job)))) = 0 <->
   exists result,
     launchPipelineExecution Samples.run_refused Samples.hello_job = Returns result /\
     logTelemetry Samples.run_refused LAUNCH_RUN (launch_metadata Samples.hello_job) =
       Returns () /\
     handleLaunchResult Samples.run_refused
       (props_pipelineName (Samples.button (Some Samples.hello_job))) result
       (history Samples.run_refused)
       (behavior (Samples.button (Some Samples.hello_job))) = Returns ()).
Proof.
  apply (error_dialog_iff_a_call_throws Samples.run_refused
           (Samples.button (Some Samples.hello_job)) Samples.hello_job).
  reflexivity.
Defined.

(** ** The order of the calls *)

(** X6. In every run the calls are made in the order of the handler's text,
    mutation, telemetry, result handling, error dialog, and none of the four
    is made twice: the line numbers of the calls of a run strictly increase. *)
Theorem calls_follow_program_order
    (hooks : Hooks) (props : LaunchRootExecutionButtonProps) :
  StronglySorted lt (call_line <$> trace (onLaunch hooks props)).
Proof.
  destruct (getVariables props ()) as [[variables|]|thrown] eqn:Hget.
  - rewrite (onLaunch_some hooks props variables Hget). cbv zeta.
    each_completion; cbn;
      repeat (constructor; [|repeat (constructor; [lia|]); constructor]);
      constructor.
  - rewrite (onLaunch_none hooks props Hget). constructor.
  - rewrite (onLaunch_throws hooks props thrown Hget). constructor.
Qed.

(** ** What the telemetry event holds *)

(** X7. The telemetry metadata of a run has no key besides jobName and
    opSelection; opSelection, when there, holds "provided", and jobName holds
    the job-name or the pipeline-name field of the request. Nothing else of
    the request reaches the telemetry sink: two runs whose requests agree on
    the two name fields and on whether a selection is carried emit the same
    metadata, whatever their configuration, their tags, the ops selected, and
    whatever the collaborators and the other props are. *)
Theorem telemetry_holds_two_tags_only
    (hooks hooks' : Hooks) (props props' : LaunchRootExecutionButtonProps)
    (variables variables' : LaunchPipelineExecutionVariables)
    (action action' : TelemetryAction) (metadata metadata' : Metadata) :
  getVariables props () = Returns (Some variables) ->
  getVariables props' () = Returns (Some variables') ->
  same_tag_inputs variables variables' ->
  Telemetry action metadata ∈ trace (onLaunch hooks props) ->
  Telemetry action' metadata' ∈ trace (onLaunch hooks' props') ->
  metadata = metadata' /\
  dom metadata ⊆ ({["jobName"; "opSelection"]} : gset string) /\
  (forall value, metadata !! "opSelection" = Some value -> value = Value "provided") /\
  (forall value,
     metadata !! "jobName" = Some value ->
     value = jobName (selector (executionParams variables)) \/
     value = pipelineName (selector (executionParams variables))).
Proof.
  intros Hsome Hsome' (Hjob & Hpipeline & Hselection) Hin Hin'.
  destruct (telemetry_event_inv hooks props action metadata Hin)
    as (v & Hv & _ & ->).
  destruct (telemetry_event_inv hooks' props' action' metadata' Hin')
    as (v' & Hv' & _ & ->).
  assert (v = variables) as -> by congruence.
  assert (v' = variables') as -> by congruence.
  split; [|split; [|split]].
  - rewrite <- !truthy_selection in Hselection.
    unfold launch_metadata. cbv zeta. rewrite Hjob, Hpipeline.
    destruct (truthy (solidSelection (selector (executionParams variables)))),
             (truthy (solidSelection (selector (executionParams variables'))));
      try reflexivity; exfalso.
    + destruct Hselection as [Hforth _]. discriminate (Hforth eq_refl).
    + destruct Hselection as [_ Hback]. discriminate (Hback eq_refl).
  - unfold launch_metadata. cbv zeta.
    destruct (truthy (solidSelection (selector (executionParams variables))));
      rewrite ?dom_insert_L, dom_empty_L; set_solver.
  - intros value. rewrite launch_metadata_opSelection.
    destruct (truthy (solidSelection (selector (executionParams variables))));
      congruence.
  - intros value. rewrite launch_metadata_jobName. intros [= <-].
    unfold js_or.
    destruct (truthy (jobName (selector (executionParams variables)))); auto.
Qed.

Lemma telemetry_holds_two_tags_only_witness :
  same_tag_inputs Samples.hello_job Samples.hello_job_reconfigured /\
  launch_metadata Samples.hello_job = launch_metadata Samples.hello_job_reconfigured /\
  dom (launch_metadata Samples.hello_job) ⊆ ({["jobName"; "opSelection"]} : gset string) /\
  (forall value,
     launch_metadata Samples.hello_job !! "opSelection" = Some value ->
     value = Value "provided") /\
  (forall value,
     launch_metadata Samples.hello_job !! "jobName" = Some value ->
     value = jobName (selector (executionParams Samples.hello_job)) \/
     value = pipelineName (selector (executionParams Samples.hello_job))).
Proof.
  assert (Hsame : same_tag_inputs Samples.hello_job Samples.hello_job_reconfigured).
  { split; [reflexivity|]. split; [reflexivity|].
    split; intros _; eexists; reflexivity. }
  split; [exact Hsame|].
  apply (telemetry_holds_two_tags_only Samples.all_fine Samples.run_refused
           (Samples.button (Some Samples.hello_job))
           (Samples.button (Some Samples.hello_job_reconfigured))
           Samples.hello_job Samples.hello_job_reconfigured LAUNCH_RUN LAUNCH_RUN
           (launch_metadata Samples.hello_job)
           (launch_metadata Samples.hello_job_reconfigured) eq_refl eq_refl Hsame).
  - apply elem_of_cons; right. apply elem_of_cons; left. reflexivity.
  - apply elem_of_cons; right. apply elem_of_cons; left. reflexivity.
Defined.

(** ** The rendered button *)



(** X9. The button is rendered enabled exactly when its caller did not
    disable it and the launch permission is there; with the permission, the
    disabled flag is the caller's. *)
Theorem button_enabled_iff
    (hooks : Hooks) (props : LaunchRootExecutionButtonProps) :
  (config_disabled (config (LaunchRootExecutionButton hooks props)) = false <->
   disabled props = false /\ canLaunchPipelineExecution hooks = true) /\
  (canLaunchPipelineExecution hooks = true ->
   config_disabled (config (LaunchRootExecutionButton hooks props)) = disabled props).
Proof.
  cbn. destruct (disabled props), (canLaunchPipelineExecution hooks); cbn;
    (split; [split; [intros H | intros [H1 H2]] | intros H]);
    first [congruence | now split].
Qed.

(** X10. The title and the icon handed to [LaunchButton] are never empty:
    a title or icon of the props is used when it is a non-empty string, and
    "Launch Run" and "open_in_new" stand in when it is missing or empty. *)
Theorem title_and_icon_defaults
    (hooks : Hooks) (props : LaunchRootExecutionButtonProps) :
  let rendered := config (LaunchRootExecutionButton hooks props) in
  config_title rendered <> "" /\
  config_icon rendered <> "" /\
  (forall s, title props = Value s -> s <> "" -> config_title rendered = s) /\
  (name_empty (title props) -> config_title rendered = "Launch Run") /\
  (forall s, icon props = Value s -> s <> "" -> config_icon rendered = s) /\
  (name_empty (icon props) -> config_icon rendered = "open_in_new").
Proof.
  assert (Hdefault : forall (field : Nullable string) (d : string),
             d <> "" ->
             js_or_default field d <> "" /\
             (forall s, field = Value s -> s <> "" -> js_or_default field d = s) /\
             (name_empty field -> js_or_default field d = d)).
  { intros field d Hd. destruct field as [| |s]; cbn.
    - repeat split; [exact Hd | discriminate].
    - repeat split; [exact Hd | discriminate].
    - destruct (truthy s) eqn:Hs.
      + apply string_truthy_spec in Hs. split; [exact Hs|]. split.
        * now intros ? [= ->] _.
        * intros [H|[H|[= H]]]; congruence.
      + split; [exact Hd|]. split; [|reflexivity].
        intros ? [= ->] Hne. apply string_truthy_spec in Hne. congruence. }
  cbn.
  destruct (Hdefault (title props) "Launch Run") as (Ht1 & Ht2 & Ht3); [discriminate|].
  destruct (Hdefault (icon props) "open_in_new") as (Hi1 & Hi2 & Hi3); [discriminate|].
  repeat split; assumption.
Qed.
